(** * simple-app: the Movie Lookup handler and the Cast Lookup service

    A shallow embedding of [lambdas/getMovieById.ts] and of the parts of
    the stack definition that configure it, followed by the properties
    the specification states about them.

    - [Js]       JavaScript data and [JSON.stringify].
    - [Dynamo]   the document client: commands, outputs, settled promises.
    - [Lambda]   the execution monad of one invocation (console, store
                 calls, exceptions) and the response record.
    - [GetMovieById]  the handler of [lambdas/getMovieById.ts].
    - [Stack]    the resources declared by [SimpleAppStack].
    - [CastLookup]    the Cast Lookup handler, after section 4.2 of the
                 specification. *)

From Stdlib Require Import String Ascii ZArith List Lia DecimalString.
From stdpp Require Import gmap strings.
Import ListNotations.

Set Warnings "-register-all".

Local Open Scope string_scope.
Local Open Scope Z_scope.

(* ===================================================================== *)
(** ** JavaScript values and JSON.stringify *)
(* ===================================================================== *)

Module Js.

Definition MAX_SAFE_INTEGER : Z := 9007199254740991.

(** [Number.isSafeInteger] on an integer: at most 2^53 - 1 in absolute
    value. *)
Definition isSafeInteger (n : Z) : bool :=
  Z.abs n <=? MAX_SAFE_INTEGER.

(** JSON data: an event decoded from JSON, the enumerable view of an
    error object, what [JSON.stringify] serialises.  A number is a safe
    integer (ids, counts), which [Number] holds exactly and prints digit
    by digit; an object is the list of its enumerable own properties in
    enumeration order.  These are trees, and [JSON.stringify] does not
    throw on them; what the document client hands over, where it can,
    is [Dynamo.NativeAttributeValue]. *)
Inductive value : Type :=
| VUndefined
| VNull
| VBool (b : bool)
| VNum (n : Z) (safe : isSafeInteger n = true)
| VStr (s : string)
| VArr (elems : list value)
| VObj (props : list (string * value)).

(** The double quote character, code 34. *)
Definition dq : ascii := "034"%char.

Definition quoted (s : string) : string :=
  String dq (s +:+ String dq EmptyString).

Definition hex_digit (n : N) : ascii :=
  match n with
  | 0%N => "0" | 1%N => "1" | 2%N => "2" | 3%N => "3"
  | 4%N => "4" | 5%N => "5" | 6%N => "6" | 7%N => "7"
  | 8%N => "8" | 9%N => "9" | 10%N => "a" | 11%N => "b"
  | 12%N => "c" | 13%N => "d" | 14%N => "e" | _ => "f"
  end%char.

(** One code unit of QuoteJSONString: the two-character escapes, then
    [\u00xx] for the other control characters, else the character. *)
Definition escape_char (c : ascii) : string :=
  let n := N_of_ascii c in
  if (n =? 8)%N then "\b"
  else if (n =? 9)%N then "\t"
  else if (n =? 10)%N then "\n"
  else if (n =? 12)%N then "\f"
  else if (n =? 13)%N then "\r"
  else if (n =? 34)%N then String "\" (String dq EmptyString)
  else if (n =? 92)%N then "\\"
  else if (n <? 32)%N then
    "\u00" +:+ String (hex_digit (n / 16)) (String (hex_digit (n mod 16)) EmptyString)
  else String c EmptyString.

Fixpoint escape (s : string) : string :=
  match s with
  | EmptyString => EmptyString
  | String c rest => escape_char c +:+ escape rest
  end.

Definition quoteJSONString (s : string) : string :=
  String dq (escape s +:+ String dq EmptyString).

(** [Number.prototype.toString] on a safe integer: its decimal digits,
    with a minus sign below zero. *)
Definition number_to_string (n : Z) (safe : isSafeInteger n = true) : string :=
  NilZero.string_of_int (Z.to_int n).

(** [Array.prototype.join] on already rendered pieces. *)
Fixpoint join (sep : string) (parts : list string) : string :=
  match parts with
  | [] => EmptyString
  | [p] => p
  | p :: rest => p +:+ sep +:+ join sep rest
  end.

(** Keeps the [Some] results of [f], in order. *)
Definition filter_map {A B : Type} (f : A -> option B) : list A -> list B :=
  fix go (l : list A) : list B :=
    match l with
    | [] => []
    | x :: rest =>
        match f x with
        | Some y => y :: go rest
        | None => go rest
        end
    end.

(** [JSON.stringify(v)] without replacer or indentation.  The result is
    [None] where JavaScript returns [undefined]; inside an array an
    undefined element prints as [null], inside an object a property whose
    value is undefined is left out. *)
Fixpoint stringify (v : value) : option string :=
  match v with
  | VUndefined => None
  | VNull => Some "null"
  | VBool true => Some "true"
  | VBool false => Some "false"
  | VNum n safe => Some (number_to_string n safe)
  | VStr s => Some (quoteJSONString s)
  | VArr elems =>
      Some ("[" +:+ join ","
              (List.map (fun x => match stringify x with
                                  | Some s => s
                                  | None => "null"
                                  end) elems) +:+ "]")
  | VObj props =>
      Some ("{" +:+ join ","
              (filter_map (fun kv => match stringify (snd kv) with
                                     | Some s => Some (quoteJSONString (fst kv) +:+ ":" +:+ s)
                                     | None => None
                                     end) props) +:+ "}")
  end.

(** How one array element is rendered. *)
Definition stringify_element (v : value) : string :=
  match stringify v with
  | Some s => s
  | None => "null"
  end.

(** What [console.log] receives for [JSON.stringify(v)]. *)
Definition stringified (v : value) : value :=
  match stringify v with
  | Some s => VStr s
  | None => VUndefined
  end.

(** The text of an object whose only property, [data], is the array
    [rows]. *)
Definition data_text (rows : list value) : string :=
  "{" +:+ quoted "data" +:+ ":[" +:+
  join "," (List.map stringify_element rows) +:+ "]}".

(** What the handler can see of a [TypeError]: an error object has no
    enumerable own property, [message] and [stack] are not enumerable. *)
Definition TypeError : value := VObj [].


End Js.

(* ===================================================================== *)
(** ** The DynamoDB document client *)
(* ===================================================================== *)

Module Dynamo.
Import Js.

(** A value as the document client hands it over, unmarshalled from a
    table: null, a boolean, a string, a list, a map, and for a number
    either a [number] or, with [wrapNumbers: false], a [BigInt] when the
    integer is not a safe one.  Numbers are integers; binary values and
    sets are not represented. *)
Inductive NativeAttributeValue : Type :=
| NativeNull
| NativeBoolean (b : bool)
| NativeNumber (n : Z) (safe : isSafeInteger n = true)
| NativeBigInt (n : Z)
| NativeString (s : string)
| NativeArray (elems : list NativeAttributeValue)
| NativeObject (props : list (string * NativeAttributeValue)).

(** [f] on every element, or nothing if [f] fails on one. *)
Definition traverse {A B : Type} (f : A -> option B) : list A -> option (list B) :=
  fix go (l : list A) : option (list B) :=
    match l with
    | [] => Some []
    | x :: rest =>
        match f x, go rest with
        | Some y, Some ys => Some (y :: ys)
        | _, _ => None
        end
    end.

(** The JSON data [JSON.stringify] finds in a native value; [None] where
    it throws a TypeError instead, which it does at a [BigInt]. *)
Fixpoint json_of (d : NativeAttributeValue) : option value :=
  match d with
  | NativeNull => Some VNull
  | NativeBoolean b => Some (VBool b)
  | NativeNumber n safe => Some (VNum n safe)
  | NativeBigInt _ => None
  | NativeString s => Some (VStr s)
  | NativeArray elems =>
      match traverse json_of elems with
      | Some vs => Some (VArr vs)
      | None => None
      end
  | NativeObject props =>
      match traverse (fun kv => match json_of (snd kv) with
                                | Some v => Some (fst kv, v)
                                | None => None
                                end) props with
      | Some vs => Some (VObj vs)
      | None => None
      end
  end.

(** A [BigInt] occurs somewhere in the value. *)
Fixpoint holds_BigInt (d : NativeAttributeValue) : bool :=
  match d with
  | NativeBigInt _ => true
  | NativeArray elems => existsb holds_BigInt elems
  | NativeObject props => existsb (fun kv => holds_BigInt (snd kv)) props
  | _ => false
  end.

(** The input of a [ScanCommand].  The optional members are the ones that
    restrict a scan: an index, a filter, a projection, a page size, a
    start key. *)
Record ScanCommandInput : Type := {
  TableName : string;
  IndexName : option string;
  FilterExpression : option string;
  ProjectionExpression : option string;
  Limit : option Z;
  ExclusiveStartKey : option NativeAttributeValue
}.

(** The output of a [ScanCommand]: every member but the response
    metadata, [$metadata], is optional in the client's declaration. *)
Record ScanCommandOutput : Type := {
  Items : option (list NativeAttributeValue);
  Count : option Z;
  ScannedCount : option Z;
  LastEvaluatedKey : option NativeAttributeValue;
  ConsumedCapacity : option value;
  metadata : value
}.

(** [Items] is there and one of the rows holds a [BigInt]. *)
Definition Items_hold_BigInt (out : ScanCommandOutput) : bool :=
  match Items out with
  | Some rows => existsb holds_BigInt rows
  | None => false
  end.

(** A promise once settled. *)
Inductive settled (A : Type) : Type :=
| Resolved (output : A)
| Rejected (error : value).
Arguments Resolved {A} output.
Arguments Rejected {A} error.

End Dynamo.

(* ===================================================================== *)
(** ** One invocation: console, store calls, exceptions *)
(* ===================================================================== *)

Module Lambda.
Import Js Dynamo.

(** What a handler returns to the function URL. *)
Record response : Type := {
  statusCode : Z;
  headers : list (string * string);
  body : option string
}.

Definition json_headers : list (string * string) :=
  [("content-type", "application/json")].

Inductive completion (A : Type) : Type :=
| Normal (result : A)
| Throw (error : value).
Arguments Normal {A} result.
Arguments Throw {A} error.

Section Exec.
(** The commands a client accepts and, for each, what it resolves
    with. *)
Context {Cmd : Type} {Out : Cmd -> Type}.

(** What the console is given: JSON data, a string among them, or the
    very object the client resolved a command with. *)
Inductive logged : Type :=
| LogValue (v : value)
| LogOutput (command : Cmd) (output : Out command).

Inductive effect : Type :=
| ConsoleLog (args : list logged)
| ConsoleError (args : list logged)
| Send (command : Cmd).

(** What an invocation runs in and cannot change: the process
    environment and the client created when the module was loaded.
    The client answers its [n]-th call as the store decides; two calls
    with the same command need not get the same answer. *)
Record runtime : Type := {
  env : gmap string string;
  ddbDocClient : nat -> forall command : Cmd, settled (Out command)
}.

(** What an invocation changes: the number of calls made on the client
    and the effects performed so far, oldest first. *)
Record world : Type := {
  calls : nat;
  trace : list effect
}.

Definition M (A : Type) : Type := runtime -> world -> completion A * world.

Definition ret {A : Type} (a : A) : M A :=
  fun _ w => (Normal a, w).

Definition bind {A B : Type} (m : M A) (k : A -> M B) : M B :=
  fun rt w =>
    match m rt w with
    | (Normal a, w') => k a rt w'
    | (Throw e, w') => (Throw e, w')
    end.

Definition throw {A : Type} (e : value) : M A :=
  fun _ w => (Throw e, w).

(** A computation without effects: its result, or what it throws. *)
Definition lift {A : Type} (c : completion A) : M A :=
  fun _ w => (c, w).

(** [try { body } catch (error) { handler error }] *)
Definition try_catch {A : Type} (body : M A) (handler : value -> M A) : M A :=
  fun rt w =>
    match body rt w with
    | (Normal a, w') => (Normal a, w')
    | (Throw e, w') => handler e rt w'
    end.

Definition perform (e : effect) (w : world) : world :=
  {| calls := calls w; trace := trace w ++ [e] |}.

Definition console_log (args : list logged) : M unit :=
  fun _ w => (Normal tt, perform (ConsoleLog args) w).

Definition console_error (args : list logged) : M unit :=
  fun _ w => (Normal tt, perform (ConsoleError args) w).

(** [await ddbDocClient.send(command)] *)
Definition send (command : Cmd) : M (Out command) :=
  fun rt w =>
    let w' := {| calls := S (calls w); trace := trace w ++ [Send command] |} in
    match ddbDocClient rt (calls w) command with
    | Resolved out => (Normal out, w')
    | Rejected e => (Throw e, w')
    end.

(** The commands sent, in order. *)
Definition commands_sent (t : list effect) : list Cmd :=
  filter_map (fun e => match e with Send c => Some c | _ => None end) t.

(** One invocation on a client that has served [n] calls before. *)
Definition invoke {A : Type} (m : M A) (rt : runtime) (n : nat) : completion A * world :=
  m rt {| calls := n; trace := [] |}.

End Exec.

Arguments logged : clear implicits.
Arguments effect : clear implicits.
Arguments runtime : clear implicits.
Arguments world Cmd {Out}.
Arguments M : clear implicits.

Declare Scope lambda_scope.
Delimit Scope lambda_scope with lambda.
Notation "'let*' x ':=' m 'in' k" := (bind m (fun x => k))
  (at level 10, x name, m at level 100, k at level 200) : lambda_scope.
Notation "m ';;;' k" := (bind m (fun _ => k))
  (at level 100, k at level 200, right associativity) : lambda_scope.

End Lambda.

(* ===================================================================== *)
(** ** lambdas/getMovieById.ts *)
(* ===================================================================== *)

Module GetMovieById.
Import Js Dynamo Lambda.
Local Open Scope lambda_scope.

(** [new ScanCommand({ TableName: name })] *)
Definition scanCommand (name : string) : ScanCommandInput :=
  {| TableName := name;
     IndexName := None;
     FilterExpression := None;
     ProjectionExpression := None;
     Limit := None;
     ExclusiveStartKey := None |}.

(** Where the handler runs: a client that takes scan commands. *)
Definition store_runtime : Type :=
  runtime ScanCommandInput (fun _ => ScanCommandOutput).

(** What an invocation of the handler changes. *)
Definition store_world : Type :=
  @world ScanCommandInput (fun _ => ScanCommandOutput).

(** [JSON.stringify({ data: items })]: the text, without the property
    when [items] is undefined, or the TypeError thrown when a row holds a
    [BigInt]. *)
Definition JSON_stringify_data (items : option (list NativeAttributeValue))
  : completion (option string) :=
  match items with
  | None => Normal (stringify (VObj [("data", VUndefined)]))
  | Some rows =>
      match traverse json_of rows with
      | Some data => Normal (stringify (VObj [("data", VArr data)]))
      | None => Throw TypeError
      end
  end.

Definition handler (event context : value)
  : M ScanCommandInput (fun _ => ScanCommandOutput) response :=
  try_catch
    (console_log [LogValue (VStr "Event: "); LogValue (stringified event)] ;;;
     let* commandOutput := send (scanCommand "Movies") in
     console_log [LogValue (VStr "ScanCommand response: ");
                  LogOutput (scanCommand "Movies") commandOutput] ;;;
     let* text := lift (JSON_stringify_data (Items commandOutput)) in
     ret {| statusCode := 200;
            headers := json_headers;
            body := text |})
    (fun error =>
     console_error [LogValue (stringified error)] ;;;
     ret {| statusCode := 500;
            headers := json_headers;
            body := stringify (VObj [("error", error)]) |}).


End GetMovieById.

(* ===================================================================== *)
(** ** The stack definition *)
(* ===================================================================== *)

Module Stack.

Inductive AttributeType : Type := NUMBER | STRING.

Record Attribute : Type := {
  name : string;
  type : AttributeType
}.

Record Table : Type := {
  tableName : string;
  partitionKey : Attribute;
  sortKey : option Attribute;
  localSecondaryIndexes : list (string * Attribute)
}.

(** The properties of a [NodejsFunction]; [timeout] is in seconds,
    [memorySize] in megabytes. *)
Record NodejsFunction : Type := {
  entry : string;
  timeout : Z;
  memorySize : Z;
  environment : gmap string string
}.

Inductive FunctionUrlAuthType : Type := AWS_IAM | NONE.

Record FunctionUrl : Type := {
  authType : FunctionUrlAuthType;
  allowedOrigins : list string
}.

Definition moviesTable : Table :=
  {| tableName := "Movies";
     partitionKey := {| name := "id"; type := NUMBER |};
     sortKey := None;
     localSecondaryIndexes := [] |}.

(** [movieCastsTable] with the index [addLocalSecondaryIndex] gives it. *)
Definition movieCastsTable : Table :=
  {| tableName := "MovieCast";
     partitionKey := {| name := "movieId"; type := NUMBER |};
     sortKey := Some {| name := "actorName"; type := STRING |};
     localSecondaryIndexes := [("roleIx", {| name := "roleName"; type := STRING |})] |}.

Definition simpleFn : NodejsFunction :=
  {| entry := "lambdas/simple.ts";
     timeout := 10;
     memorySize := 128;
     environment := ∅ |}.

Definition simpleFnURL : FunctionUrl :=
  {| authType := AWS_IAM; allowedOrigins := ["*"] |}.

Definition getMovieByIdFn : NodejsFunction :=
  {| entry := "lambdas/getMovieById.ts";
     timeout := 10;
     memorySize := 128;
     environment :=
       list_to_map [("TABLE_NAME", tableName moviesTable);
                    ("REGION", "eu-west-1")] |}.

Definition getMovieByIdURL : FunctionUrl :=
  {| authType := NONE; allowedOrigins := ["*"] |}.

Definition getMovieCastMembersFn : NodejsFunction :=
  {| entry := "lambdas/getMovieCastMembers.ts";
     timeout := 10;
     memorySize := 128;
     environment :=
       list_to_map [("CAST_TABLE_NAME", tableName movieCastsTable);
                    ("MOVIE_TABLE_NAME", tableName moviesTable);
                    ("REGION", "eu-west-1")] |}.

Definition getMovieCastMembersURL : FunctionUrl :=
  {| authType := NONE; allowedOrigins := ["*"] |}.

End Stack.

(* ===================================================================== *)
(** ** The Cast Lookup handler *)
(* ===================================================================== *)

Module CastLookup.
Import Js Dynamo Lambda.
Local Open Scope lambda_scope.

(** Modelled from the spec: the store read API the Cast Lookup handler
    consumes ([lambdas/getMovieCastMembers.ts] is missing), after the
    abstract contract of section 6: a query of a collection by partition
    key with an optional sort-key condition, on the collection itself or
    on its secondary ordering index, and a point lookup by key. *)
Inductive request : Type :=
| Query (collection : string) (index : option string)
        (partitionKey : Z) (sortKeyCondition : option string)
| GetItem (collection : string) (key : Z).

(** Modelled from the spec: what the store read API of the missing
    handler answers, [query -> rows] and [getItem -> row | absent]. *)
Definition reply (r : request) : Type :=
  match r with
  | Query _ _ _ _ => list value
  | GetItem _ _ => option value
  end.

(** Modelled from the spec: the inputs of the missing Cast Lookup
    handler (section 4.2), as received: [movieId] is the raw text, absent
    when the parameter is missing. *)
Record parameters : Type := {
  movieId : option string;
  actorName : option string;
  roleName : option string;
  includeMovieMetadata : bool
}.

(** Modelled from the spec: [movieId] of the missing handler must parse
    as an integer: an optional minus sign and at least one decimal digit,
    nothing else. *)
Definition parse_integer (raw : string) : option Z :=
  option_map Z.of_int (NilZero.int_of_string raw).

(** Modelled from the spec: the validation of the missing handler, the
    integer when [movieId] is present and parses. *)
Definition valid_movieId (p : parameters) : option Z :=
  match movieId p with
  | Some raw => parse_integer raw
  | None => None
  end.

(** Modelled from the spec: step 1 of the retrieval algorithm of the
    missing handler.  An actor name is an exact match on the sort key of
    the collection; otherwise a role name goes through the secondary
    ordering index; otherwise the whole partition is read. *)
Definition cast_index (p : parameters) : option string :=
  match actorName p, roleName p with
  | None, Some _ => Some "roleIx"
  | _, _ => None
  end.

(** Modelled from the spec: the sort-key condition of step 1 of the
    missing handler. *)
Definition cast_sort_key (p : parameters) : option string :=
  match actorName p with
  | Some a => Some a
  | None => roleName p
  end.

(** Modelled from the spec: the cast query of step 1 of the missing
    handler, on the collection and the index the stack declares. *)
Definition cast_query (id : Z) (p : parameters) : request :=
  Query "MovieCast" (cast_index p) id (cast_sort_key p).

(** Modelled from the spec: the success response of the missing
    handler, status 200 and body [{ data: rows }]. *)
Definition data_response (rows : list value) : response :=
  {| statusCode := 200;
     headers := json_headers;
     body := stringify (VObj [("data", VArr rows)]) |}.

(** Modelled from the spec: the error response of the missing handler,
    body [{ error: details }]. *)
Definition error_response (status : Z) (details : value) : response :=
  {| statusCode := status;
     headers := json_headers;
     body := stringify (VObj [("error", details)]) |}.

Section Handler.
(** The two points section 9 leaves to the implementer: how a movie is
    merged into one cast row, and how the invalid parameter is
    described. *)
Variable merge : value -> value -> value.
Variable describe_invalid : option string -> value.

(** Modelled from the spec: the missing Cast Lookup handler, after
    section 4.2: validation before any store access, the cast query,
    the early return on zero rows, the optional point lookup of the
    movie with the merge applied to every row, and every store error
    turned into a 500 response. *)
Definition handler (p : parameters) : M request reply response :=
  match valid_movieId p with
  | None => ret (error_response 400 (describe_invalid (movieId p)))
  | Some id =>
      try_catch
        (let* rows := send (cast_query id p) in
         match rows with
         | [] => ret (data_response [])
         | _ :: _ =>
             if includeMovieMetadata p then
               let* movie := send (GetItem "Movies" id) in
               match movie with
               | Some m => ret (data_response (List.map (merge m) rows))
               | None => ret (data_response rows)
               end
             else ret (data_response rows)
         end)
        (fun error => ret (error_response 500 error))
  end.
End Handler.

(** Modelled from the spec: the two merge policies section 4.2 names for
    the missing handler, nesting the movie under a [movie] field and
    flattening its attributes into the row. *)
Definition nest_under_movie (movie row : value) : value :=
  match row with
  | VObj props => VObj (props ++ [("movie", movie)])
  | _ => row
  end.

(** Modelled from the spec: the flattening merge policy of section 4.2. *)
Definition flatten (movie row : value) : value :=
  match row, movie with
  | VObj props, VObj attrs => VObj (props ++ attrs)
  | _, _ => row
  end.

(** Modelled from the spec: one description of the invalid parameter;
    the spec does not fix its text. *)
Definition describe_movieId (raw : option string) : value :=
  match raw with
  | Some text => VStr ("movieId is not an integer: " +:+ text)
  | None => VStr "movieId is missing"
  end.

(** *** A store backed by two lists of records *)

Fixpoint property (key : string) (props : list (string * value)) : value :=
  match props with
  | [] => VUndefined
  | (k, v) :: rest => if String.eqb k key then v else property key rest
  end.

Definition field (key : string) (v : value) : value :=
  match v with
  | VObj props => property key props
  | _ => VUndefined
  end.

Definition is_number (n : Z) (v : value) : bool :=
  match v with
  | VNum m _ => Z.eqb m n
  | _ => false
  end.

Definition is_string (s : string) (v : value) : bool :=
  match v with
  | VStr t => String.eqb t s
  | _ => false
  end.

(** Modelled from the spec: a store holding the two collections of the
    persisted schema (section 6) and answering the read API from them;
    the index decides which attribute the sort-key condition is on. *)
Definition table_store (movies cast : list value)
  : nat -> forall r : request, settled (reply r) :=
  fun _ r =>
    match r return settled (reply r) with
    | Query _ index pk condition =>
        Resolved
          (List.filter
             (fun row =>
                is_number pk (field "movieId" row) &&
                match condition, index with
                | None, _ => true
                | Some s, None => is_string s (field "actorName" row)
                | Some s, Some _ => is_string s (field "roleName" row)
                end)
             cast)
    | GetItem _ key =>
        Resolved (List.find (fun m => is_number key (field "id" m)) movies)
    end.

End CastLookup.

(* ===================================================================== *)
(** ** Sample stores and runtimes *)
(* ===================================================================== *)

Module Fixtures.
Import Js Dynamo Lambda.

Definition movie_A : value :=
  VObj [("id", VNum 1 eq_refl); ("title", VStr "A")].
Definition movie_B : value :=
  VObj [("id", VNum 2 eq_refl); ("title", VStr "B")].

Definition cast_X : value :=
  VObj [("movieId", VNum 1 eq_refl); ("actorName", VStr "X"); ("roleName", VStr "Hero")].
Definition cast_Y : value :=
  VObj [("movieId", VNum 1 eq_refl); ("actorName", VStr "Y"); ("roleName", VStr "Villain")].
Definition cast_orphan : value :=
  VObj [("movieId", VNum 7 eq_refl); ("actorName", VStr "Z"); ("roleName", VStr "Extra")].

(** Rows of the [Movies] table as the document client hands them over. *)
Definition item_A : NativeAttributeValue :=
  NativeObject [("id", NativeNumber 1 eq_refl); ("title", NativeString "A")].

(** A row whose id, 2^53 + 1, is not a safe integer. *)
Definition item_big : NativeAttributeValue :=
  NativeObject [("id", NativeBigInt 9007199254740993);
                ("title", NativeString "C")].

Definition response_metadata : value :=
  VObj [("httpStatusCode", VNum 200 eq_refl); ("attempts", VNum 1 eq_refl)].

Definition page (rows : list NativeAttributeValue) : ScanCommandOutput :=
  {| Items := Some rows;
     Count := Some (Z.of_nat (List.length rows));
     ScannedCount := Some (Z.of_nat (List.length rows));
     LastEvaluatedKey := None;
     ConsumedCapacity := None;
     metadata := response_metadata |}.

(** A page after which more records remain. *)
Definition partial_page (rows : list NativeAttributeValue)
    (key : NativeAttributeValue) : ScanCommandOutput :=
  {| Items := Some rows;
     Count := Some (Z.of_nat (List.length rows));
     ScannedCount := Some 40;
     LastEvaluatedKey := Some key;
     ConsumedCapacity := None;
     metadata := response_metadata |}.

(** The output of a scan that was asked for a count only. *)
Definition count_only (count : Z) : ScanCommandOutput :=
  {| Items := None;
     Count := Some count;
     ScannedCount := Some count;
     LastEvaluatedKey := None;
     ConsumedCapacity := None;
     metadata := response_metadata |}.

Definition not_found : value :=
  VObj [("name", VStr "ResourceNotFoundException"); ("$fault", VStr "client")].

(** A store that knows one table, [Movies], holding [rows]. *)
Definition movies_store (rows : list NativeAttributeValue)
  : nat -> ScanCommandInput -> settled ScanCommandOutput :=
  fun _ c =>
    if String.eqb (TableName c) "Movies" then Resolved (page rows)
    else Rejected not_found.

(** A store whose first call fails and whose later calls succeed. *)
Definition flaky_store (rows : list NativeAttributeValue)
  : nat -> ScanCommandInput -> settled ScanCommandOutput :=
  fun n _ =>
    match n with
    | O => Rejected (VObj [("name", VStr "ThrottlingException")])
    | S _ => Resolved (page rows)
    end.

(** The runtime of the deployed function: the environment the stack
    gives it, around some store. *)
Definition deployed (store : nat -> ScanCommandInput -> settled ScanCommandOutput)
  : runtime ScanCommandInput (fun _ => ScanCommandOutput) :=
  {| env := Stack.environment Stack.getMovieByIdFn;
     ddbDocClient := store |}.

Definition cast_runtime (movies cast : list value)
  : runtime CastLookup.request CastLookup.reply :=
  {| env := Stack.environment Stack.getMovieCastMembersFn;
     ddbDocClient := CastLookup.table_store movies cast |}.

Definition get_event : value :=
  VObj [("rawPath", VStr "/"); ("queryStringParameters", VObj [("id", VStr "1")])].

End Fixtures.

(* ===================================================================== *)
(** ** Facts about strings and JSON.stringify *)
(* ===================================================================== *)

(* ===================================================================== *)
(** ** The module around the handler *)
(* ===================================================================== *)

Module Instance.
Import Js Dynamo Lambda GetMovieById.
Local Open Scope lambda_scope.

Record DynamoDBClient : Type := {
  region : string
}.

Record marshallOptions : Type := {
  convertEmptyValues : bool;
  removeUndefinedValues : bool;
  convertClassInstanceToMap : bool
}.

Record unmarshallOptions : Type := {
  wrapNumbers : bool
}.

Record translateConfig : Type := {
  marshall : marshallOptions;
  unmarshall : unmarshallOptions
}.

(** What [DynamoDBDocumentClient.from] is given. *)
Record DynamoDBDocumentClient : Type := {
  ddbClient : DynamoDBClient;
  config : translateConfig
}.

Definition createDDbDocClient : DynamoDBDocumentClient :=
  {| ddbClient := {| region := "eu-west-1" |};
     config :=
       {| marshall := {| convertEmptyValues := true;
                         removeUndefinedValues := true;
                         convertClassInstanceToMap := true |};
          unmarshall := {| wrapNumbers := false |} |} |}.

(** The module is loaded once and its exported handler is called once
    per request, one request after the other, on the client created at
    load: the invocations share the client and nothing else. *)
Fixpoint serve (requests : list (value * value))
  : M ScanCommandInput (fun _ => ScanCommandOutput) (list response) :=
  match requests with
  | [] => ret []
  | (event, context) :: rest =>
      let* first := handler event context in
      let* others := serve rest in
      ret (first :: others)
  end.

(** No character of [s] is a control character (a code below 32). *)
Fixpoint no_control (s : string) : bool :=
  match s with
  | EmptyString => true
  | String c rest => (32 <=? N_of_ascii c)%N && no_control rest
  end.

End Instance.

(* ===================================================================== *)
(** ** What the stack grants *)
(* ===================================================================== *)

Module Grants.
Import Stack.

(** The [grantReadData] calls of the stack: the table, and the function
    that may read it. *)
Definition grantReadData : list (Table * NodejsFunction) :=
  [(moviesTable, getMovieByIdFn);
   (moviesTable, getMovieCastMembersFn);
   (movieCastsTable, getMovieCastMembersFn)].

(** The tables the stack creates. *)
Definition tables : list Table := [moviesTable; movieCastsTable].

End Grants.

(* ===================================================================== *)
(** ** The seed of the two tables *)
(* ===================================================================== *)

Module Seed.
Import Stack.

Section Batches.
(** [generateBatch] of [shared/util] and the records of [seed/movies]
    are taken as they come: any item type, any batch type, any
    function, any two lists. *)
Context {Item Batch : Type}.
Variable generateBatch : list Item -> Batch.
Variables movies movieCasts : list Item.

(** The object literal with the two computed keys: the properties are
    defined in the order written, the second over the first if the keys
    are equal. *)
Definition RequestItems : gmap string Batch :=
  <[tableName movieCastsTable := generateBatch movieCasts]>
    (<[tableName moviesTable := generateBatch movies]> ∅).

Record AwsSdkCall : Type := {
  service : string;
  action : string;
  parameters : gmap string Batch;
  physicalResourceId : string
}.

Definition onCreate : AwsSdkCall :=
  {| service := "DynamoDB";
     action := "batchWriteItem";
     parameters := RequestItems;
     physicalResourceId := "moviesddbInitData" |}.

End Batches.

(** The tables whose ARNs the policy of the custom resource lists. *)
Definition policy_resources : list Table := [moviesTable; movieCastsTable].

End Seed.

Import Js Dynamo Lambda.

Section StringFacts.

Lemma append_assoc (a b c : string) : (a +:+ b) +:+ c = a +:+ (b +:+ c).
Proof.
  induction a as [|x a IH]; [reflexivity|].
  change (String x ((a +:+ b) +:+ c) = String x (a +:+ (b +:+ c))).
  now rewrite IH.
Qed.




Lemma stringify_data (rows : list value) :
  stringify (VObj [("data", VArr rows)]) = Some (data_text rows).
Proof.
  unfold data_text.
  cbn [stringify filter_map fst snd join].
  rewrite !append_assoc.
  reflexivity.
Qed.

Lemma stringify_error (error : value) (s : string) :
  stringify error = Some s ->
  stringify (VObj [("error", error)]) =
  Some ("{" +:+ quoted "error" +:+ ":" +:+ s +:+ "}").
Proof.
  intros H.
  cbn [stringify filter_map fst snd join].
  rewrite H.
  cbn [join].
  rewrite !append_assoc.
  reflexivity.
Qed.

Lemma stringify_object_some (props : list (string * value)) :
  exists s, stringify (VObj props) = Some s.
Proof. cbn [stringify]. eauto. Qed.
End StringFacts.

(* ===================================================================== *)
(** ** Facts about what the client hands over *)
(* ===================================================================== *)

Section NativeFacts.

Lemma native_nested_ind (P : NativeAttributeValue -> Prop) :
  P NativeNull ->
  (forall b, P (NativeBoolean b)) ->
  (forall n safe, P (NativeNumber n safe)) ->
  (forall n, P (NativeBigInt n)) ->
  (forall s, P (NativeString s)) ->
  (forall elems, Forall P elems -> P (NativeArray elems)) ->
  (forall props, Forall (fun kv => P (snd kv)) props -> P (NativeObject props)) ->
  forall d, P d.
Proof.
  intros Hnull Hbool Hnum Hbig Hstr Harr Hobj.
  fix IH 1.
  intros [ | b | n safe | n | s | elems | props].
  - exact Hnull.
  - apply Hbool.
  - apply Hnum.
  - apply Hbig.
  - apply Hstr.
  - apply Harr.
    refine ((fix go (l : list NativeAttributeValue) : Forall P l :=
               match l with
               | [] => List.Forall_nil _
               | x :: rest => List.Forall_cons _ x rest (IH x) (go rest)
               end) elems).
  - apply Hobj.
    refine ((fix go (l : list (string * NativeAttributeValue))
               : Forall (fun kv => P (snd kv)) l :=
               match l with
               | [] => List.Forall_nil _
               | kv :: rest => List.Forall_cons _ kv rest (IH (snd kv)) (go rest)
               end) props).
Qed.

Lemma traverse_None_iff {A B : Type} (f : A -> option B) (p : A -> bool)
    (l : list A) :
  Forall (fun x => f x = None <-> p x = true) l ->
  (traverse f l = None <-> existsb p l = true).
Proof.
  induction 1 as [|x rest Hx Hrest IH]; cbn [traverse existsb].
  - split; discriminate.
  - rewrite orb_true_iff, <- Hx, <- IH.
    destruct (f x) as [y|]; destruct (traverse f rest) as [ys|];
      split; try discriminate; try tauto; intros [?|?]; discriminate.
Qed.

(** [JSON.stringify] throws on a native value exactly when a [BigInt]
    occurs in it. *)
Lemma json_of_None_iff (d : NativeAttributeValue) :
  json_of d = None <-> holds_BigInt d = true.
Proof.
  induction d as [ | b | n safe | n | s | elems IH | props IH]
    using native_nested_ind; cbn [json_of holds_BigInt];
    try (split; discriminate); try tauto.
  - rewrite <- (traverse_None_iff json_of holds_BigInt elems IH).
    destruct (traverse json_of elems); split; try discriminate; tauto.
  - match goal with
    | |- context [traverse ?f props] =>
        rewrite <- (traverse_None_iff f (fun kv => holds_BigInt (snd kv)) props);
        [destruct (traverse f props); split; try discriminate; tauto|]
    end.
    clear -IH. induction IH as [|kv rest Hkv Hrest IHrest]; constructor; auto.
    rewrite <- Hkv. destruct (json_of (snd kv)); split; try discriminate; tauto.
Qed.

Lemma json_rows_None_iff (rows : list NativeAttributeValue) :
  traverse json_of rows = None <-> existsb holds_BigInt rows = true.
Proof.
  apply traverse_None_iff.
  induction rows; constructor; auto using json_of_None_iff.
Qed.

Lemma json_rows_Some (rows : list NativeAttributeValue) :
  existsb holds_BigInt rows = false ->
  exists data, traverse json_of rows = Some data.
Proof.
  intros Hno.
  destruct (traverse json_of rows) as [data|] eqn:Hrows; [eauto|].
  apply json_rows_None_iff in Hrows. congruence.
Qed.


End NativeFacts.

(* ===================================================================== *)
(** ** The Movie Lookup handler *)
(* ===================================================================== *)

Section MovieLookup.
Import GetMovieById.

(** The handler started in any world, by what the store answers and by
    whether the rows can be serialised. *)
Lemma handler_run_from (rt : store_runtime) (w : store_world)
    (event context : value) :
  handler event context rt w =
  match ddbDocClient rt (calls w) (scanCommand "Movies") with
  | Resolved out =>
      match JSON_stringify_data (Items out) with
      | Normal text =>
          (Normal {| statusCode := 200;
                     headers := json_headers;
                     body := text |},
           {| calls := S (calls w);
              trace := trace w ++
                [ConsoleLog [LogValue (VStr "Event: "); LogValue (stringified event)];
                 Send (scanCommand "Movies");
                 ConsoleLog [LogValue (VStr "ScanCommand response: ");
                             LogOutput (scanCommand "Movies") out]] |})
      | Throw thrown =>
          (Normal {| statusCode := 500;
                     headers := json_headers;
                     body := stringify (VObj [("error", thrown)]) |},
           {| calls := S (calls w);
              trace := trace w ++
                [ConsoleLog [LogValue (VStr "Event: "); LogValue (stringified event)];
                 Send (scanCommand "Movies");
                 ConsoleLog [LogValue (VStr "ScanCommand response: ");
                             LogOutput (scanCommand "Movies") out];
                 ConsoleError [LogValue (stringified thrown)]] |})
      end
  | Rejected error =>
      (Normal {| statusCode := 500;
                 headers := json_headers;
                 body := stringify (VObj [("error", error)]) |},
       {| calls := S (calls w);
          trace := trace w ++
            [ConsoleLog [LogValue (VStr "Event: "); LogValue (stringified event)];
             Send (scanCommand "Movies");
             ConsoleError [LogValue (stringified error)]] |})
  end.
Proof.
  unfold handler, try_catch, bind, send, console_log, console_error, lift,
    ret, perform.
  cbn [calls trace].
  destruct (ddbDocClient rt (calls w) (scanCommand "Movies")) as [out|error].
  - destruct (JSON_stringify_data (Items out)) as [text|thrown];
      cbn [calls trace]; now rewrite <- !app_assoc.
  - cbn [calls trace]. now rewrite <- !app_assoc.
Qed.

Lemma handler_run (rt : store_runtime) (n : nat) (event context : value) :
  invoke (handler event context) rt n =
  match ddbDocClient rt n (scanCommand "Movies") with
  | Resolved out =>
      match JSON_stringify_data (Items out) with
      | Normal text =>
          (Normal {| statusCode := 200;
                     headers := json_headers;
                     body := text |},
           {| calls := S n;
              trace :=
                [ConsoleLog [LogValue (VStr "Event: "); LogValue (stringified event)];
                 Send (scanCommand "Movies");
                 ConsoleLog [LogValue (VStr "ScanCommand response: ");
                             LogOutput (scanCommand "Movies") out]] |})
      | Throw thrown =>
          (Normal {| statusCode := 500;
                     headers := json_headers;
                     body := stringify (VObj [("error", thrown)]) |},
           {| calls := S n;
              trace :=
                [ConsoleLog [LogValue (VStr "Event: "); LogValue (stringified event)];
                 Send (scanCommand "Movies");
                 ConsoleLog [LogValue (VStr "ScanCommand response: ");
                             LogOutput (scanCommand "Movies") out];
                 ConsoleError [LogValue (stringified thrown)]] |})
      end
  | Rejected error =>
      (Normal {| statusCode := 500;
                 headers := json_headers;
                 body := stringify (VObj [("error", error)]) |},
       {| calls := S n;
          trace :=
            [ConsoleLog [LogValue (VStr "Event: "); LogValue (stringified event)];
             Send (scanCommand "Movies");
             ConsoleError [LogValue (stringified error)]] |})
  end.
Proof.
  unfold invoke. rewrite handler_run_from. reflexivity.
Qed.

(** What [JSON.stringify({ data: Items })] does, by whether a row holds a
    [BigInt]. *)
Lemma JSON_stringify_data_throws (out : ScanCommandOutput) :
  Items_hold_BigInt out = true ->
  JSON_stringify_data (Items out) = Throw TypeError.
Proof.
  unfold Items_hold_BigInt, JSON_stringify_data.
  destruct (Items out) as [rows|]; [|discriminate].
  intros Hbig. apply json_rows_None_iff in Hbig. now rewrite Hbig.
Qed.

Lemma JSON_stringify_data_text (out : ScanCommandOutput) :
  Items_hold_BigInt out = false ->
  exists props text,
    JSON_stringify_data (Items out) = Normal (Some text) /\
    stringify (VObj props) = Some text.
Proof.
  unfold Items_hold_BigInt, JSON_stringify_data.
  destruct (Items out) as [rows|].
  - intros Hno. destruct (json_rows_Some rows Hno) as [data ->].
    destruct (stringify_object_some [("data", VArr data)]) as [text Ht].
    exists [("data", VArr data)], text. now rewrite Ht.
  - intros _.
    destruct (stringify_object_some [("data", VUndefined)]) as [text Ht].
    exists [("data", VUndefined)], text. now rewrite Ht.
Qed.

(** Whatever the store answers, the handler sends one command, the scan
    of [Movies]. *)
Lemma handler_sends_one_scan (rt : store_runtime) (n : nat) (event context : value) :
  commands_sent (trace (snd (invoke (handler event context) rt n))) =
    [scanCommand "Movies"] /\
  calls (snd (invoke (handler event context) rt n)) = S n.
Proof.
  rewrite handler_run.
  destruct (ddbDocClient rt n (scanCommand "Movies")) as [out|error];
    [destruct (JSON_stringify_data (Items out))|]; now split.
Qed.


(** C2. When the store call of an invocation is rejected with [error]:
    the handler returns status 500 with the text of [{ error }] as body,
    which echoes the serialised error, and it has called the store once
    and no more. *)
Theorem movie_lookup_store_error
    (rt : store_runtime) (n : nat) (event context error : value) :
  ddbDocClient rt n (scanCommand "Movies") = Rejected error ->
  exists resp w,
    invoke (handler event context) rt n = (Normal resp, w) /\
    statusCode resp = 500 /\
    body resp = stringify (VObj [("error", error)]) /\
    (forall s, stringify error = Some s ->
       body resp = Some ("{" +:+ quoted "error" +:+ ":" +:+ s +:+ "}")) /\
    commands_sent (trace w) = [scanCommand "Movies"] /\
    calls w = S n.
Proof.
  intros Hout.
  eexists _, _. rewrite handler_run, Hout. split; [reflexivity|].
  cbn [statusCode body trace calls].
  repeat split.
  intros s Hs. now apply stringify_error.
Qed.

(** C3. When the scan returns no records, the handler returns status 200
    and the body is exactly the text [{"data":[]}]. *)
Theorem movie_lookup_empty_collection
    (rt : store_runtime) (n : nat) (event context : value)
    (out : ScanCommandOutput) :
  ddbDocClient rt n (scanCommand "Movies") = Resolved out ->
  Items out = Some [] ->
  exists w,
    invoke (handler event context) rt n =
    (Normal {| statusCode := 200;
               headers := json_headers;
               body := Some ("{" +:+ quoted "data" +:+ ":[]}") |}, w).
Proof.
  intros Hout Hitems.
  eexists. rewrite handler_run, Hout, Hitems. reflexivity.
Qed.

(** C8. The event and the context do not reach the response: two
    invocations with any two events, on stores that answer the scan
    alike, send the same scan and return the same response. *)
Theorem movie_lookup_ignores_event
    (rt1 rt2 : store_runtime) (n1 n2 : nat)
    (event1 context1 event2 context2 : value) :
  ddbDocClient rt1 n1 (scanCommand "Movies") =
  ddbDocClient rt2 n2 (scanCommand "Movies") ->
  fst (invoke (handler event1 context1) rt1 n1) =
  fst (invoke (handler event2 context2) rt2 n2) /\
  commands_sent (trace (snd (invoke (handler event1 context1) rt1 n1))) =
  commands_sent (trace (snd (invoke (handler event2 context2) rt2 n2))).
Proof.
  intros Hsame.
  rewrite !handler_run, Hsame.
  destruct (ddbDocClient rt2 n2 (scanCommand "Movies")) as [out|error];
    [destruct (JSON_stringify_data (Items out))|]; now split.
Qed.

(** C9. Every invocation completes normally, never by an exception, with
    a response whose status is 200 or 500, whose only header is the JSON
    content type and whose body is the JSON text of an object. *)
Theorem movie_lookup_total
    (rt : store_runtime) (n : nat) (event context : value) :
  exists resp w,
    invoke (handler event context) rt n = (Normal resp, w) /\
    (statusCode resp = 200 \/ statusCode resp = 500) /\
    headers resp = [("content-type", "application/json")] /\
    exists props text,
      stringify (VObj props) = Some text /\ body resp = Some text.
Proof.
  rewrite handler_run.
  destruct (ddbDocClient rt n (scanCommand "Movies")) as [out|error].
  - destruct (Items_hold_BigInt out) eqn:Hbig.
    + rewrite (JSON_stringify_data_throws out Hbig).
      eexists _, _. split; [reflexivity|].
      cbn [statusCode headers body].
      split; [now right|]. split; [reflexivity|].
      destruct (stringify_object_some [("error", TypeError)]) as [text Ht].
      now exists [("error", TypeError)], text.
    + destruct (JSON_stringify_data_text out Hbig) as (props & text & -> & Ht).
      eexists _, _. split; [reflexivity|].
      cbn [statusCode headers body].
      split; [now left|]. split; [reflexivity|].
      now exists props, text.
  - eexists _, _. split; [reflexivity|].
    cbn [statusCode headers body].
    split; [now right|]. split; [reflexivity|].
    destruct (stringify_object_some [("error", error)]) as [text Ht].
    now exists [("error", error)], text.
Qed.

(** C10. The table scanned is the literal [Movies]: every invocation
    sends exactly one command, the scan whose table name is [Movies],
    whatever the environment holds; every command sent names that
    table; and replacing the process environment, where the stack puts
    [TABLE_NAME], by any other changes nothing in the run. *)
Theorem movie_lookup_table_fixed
    (rt : store_runtime) (n : nat) (event context : value)
    (env' : gmap string string) :
  Stack.environment Stack.getMovieByIdFn !! "TABLE_NAME" =
    Some (Stack.tableName Stack.moviesTable) /\
  commands_sent (trace (snd (invoke (handler event context) rt n))) =
    [scanCommand "Movies"] /\
  commands_sent
    (trace (snd (invoke (handler event context)
                   {| env := env'; ddbDocClient := ddbDocClient rt |} n))) =
    [scanCommand "Movies"] /\
  TableName (scanCommand "Movies") = "Movies" /\
  Forall (fun c => TableName c = "Movies")
    (commands_sent (trace (snd (invoke (handler event context) rt n)))) /\
  invoke (handler event context)
    {| env := env'; ddbDocClient := ddbDocClient rt |} n =
  invoke (handler event context) rt n.
Proof.
  split; [vm_compute; reflexivity|].
  split; [apply handler_sends_one_scan|].
  split; [apply handler_sends_one_scan|].
  split; [reflexivity|].
  split.
  - destruct (handler_sends_one_scan rt n event context) as [-> _].
    constructor; [reflexivity|constructor].
  - now rewrite !handler_run.
Qed.

End MovieLookup.



(** Witness of C2: the first call fails, a second one would succeed. *)
Lemma movie_lookup_store_error_witness :
  ddbDocClient (Fixtures.deployed (Fixtures.flaky_store [Fixtures.item_A]))
    0 (GetMovieById.scanCommand "Movies") =
    Rejected (VObj [("name", VStr "ThrottlingException")]) /\
  exists resp w,
    invoke (GetMovieById.handler Fixtures.get_event VNull)
      (Fixtures.deployed (Fixtures.flaky_store [Fixtures.item_A])) 0 =
      (Normal resp, w) /\
    statusCode resp = 500 /\
    body resp = stringify (VObj [("error", VObj [("name", VStr "ThrottlingException")])]) /\
    (forall s, stringify (VObj [("name", VStr "ThrottlingException")]) = Some s ->
       body resp = Some ("{" +:+ quoted "error" +:+ ":" +:+ s +:+ "}")) /\
    commands_sent (trace w) = [GetMovieById.scanCommand "Movies"] /\
    calls w = 1%nat.
Proof.
  split; [reflexivity|].
  apply (movie_lookup_store_error
           (Fixtures.deployed (Fixtures.flaky_store [Fixtures.item_A]))
           0 Fixtures.get_event VNull
           (VObj [("name", VStr "ThrottlingException")])); reflexivity.
Defined.

(** Witness of C3: the table of the deployed function is empty. *)
Lemma movie_lookup_empty_collection_witness :
  ddbDocClient (Fixtures.deployed (Fixtures.movies_store []))
    0 (GetMovieById.scanCommand "Movies") = Resolved (Fixtures.page []) /\
  Items (Fixtures.page []) = Some [] /\
  exists w,
    invoke (GetMovieById.handler Fixtures.get_event VNull)
      (Fixtures.deployed (Fixtures.movies_store [])) 0 =
    (Normal {| statusCode := 200;
               headers := json_headers;
               body := Some ("{" +:+ quoted "data" +:+ ":[]}") |}, w).
Proof.
  split; [reflexivity|]. split; [reflexivity|].
  apply (movie_lookup_empty_collection
           (Fixtures.deployed (Fixtures.movies_store []))
           0 Fixtures.get_event VNull (Fixtures.page [])); reflexivity.
Defined.

(** Witness of C8: two different events, two runtimes whose stores give
    the same page to the scan. *)
Lemma movie_lookup_ignores_event_witness :
  ddbDocClient (Fixtures.deployed (Fixtures.movies_store [Fixtures.item_A]))
    0 (GetMovieById.scanCommand "Movies") =
  ddbDocClient (Fixtures.deployed (Fixtures.flaky_store [Fixtures.item_A]))
    1 (GetMovieById.scanCommand "Movies") /\
  fst (invoke (GetMovieById.handler Fixtures.get_event VNull)
         (Fixtures.deployed (Fixtures.movies_store [Fixtures.item_A])) 0) =
  fst (invoke (GetMovieById.handler VUndefined (VStr "ctx"))
         (Fixtures.deployed (Fixtures.flaky_store [Fixtures.item_A])) 1) /\
  commands_sent (trace (snd (invoke (GetMovieById.handler Fixtures.get_event VNull)
         (Fixtures.deployed (Fixtures.movies_store [Fixtures.item_A])) 0))) =
  commands_sent (trace (snd (invoke (GetMovieById.handler VUndefined (VStr "ctx"))
         (Fixtures.deployed (Fixtures.flaky_store [Fixtures.item_A])) 1))).
Proof.
  split; [reflexivity|].
  apply (movie_lookup_ignores_event
           (Fixtures.deployed (Fixtures.movies_store [Fixtures.item_A]))
           (Fixtures.deployed (Fixtures.flaky_store [Fixtures.item_A]))
           0 1 Fixtures.get_event VNull VUndefined (VStr "ctx")); reflexivity.
Defined.

(* ===================================================================== *)
(** ** The Cast Lookup handler *)
(* ===================================================================== *)

Section CastLookupFacts.
Import CastLookup.

Variable merge : value -> value -> value.
Variable describe_invalid : option string -> value.

(** The runs of the handler, by what the parameters are and what the
    store answers. *)
Lemma cast_run_invalid (p : parameters) (rt : runtime request reply) (n : nat) :
  valid_movieId p = None ->
  invoke (handler merge describe_invalid p) rt n =
  (Normal (error_response 400 (describe_invalid (movieId p))),
   {| calls := n; trace := [] |}).
Proof.
  intros Hp. unfold invoke, handler. now rewrite Hp.
Qed.

Lemma cast_run_no_rows (p : parameters) (rt : runtime request reply) (n : nat) (id : Z) :
  valid_movieId p = Some id ->
  ddbDocClient rt n (cast_query id p) = Resolved [] ->
  invoke (handler merge describe_invalid p) rt n =
  (Normal (data_response []),
   {| calls := S n; trace := [Send (cast_query id p)] |}).
Proof.
  intros Hp Hq. unfold invoke, handler. rewrite Hp.
  unfold try_catch, bind, send. cbn [calls trace app].
  now rewrite Hq.
Qed.

Lemma cast_run_lookup (p : parameters) (rt : runtime request reply) (n : nat) (id : Z)
    (row : value) (rows : list value) (found : option value) :
  valid_movieId p = Some id ->
  includeMovieMetadata p = true ->
  ddbDocClient rt n (cast_query id p) = Resolved (row :: rows) ->
  ddbDocClient rt (S n) (GetItem "Movies" id) = Resolved found ->
  invoke (handler merge describe_invalid p) rt n =
  (Normal (data_response
             match found with
             | Some movie => List.map (merge movie) (row :: rows)
             | None => row :: rows
             end),
   {| calls := S (S n);
      trace := [Send (cast_query id p); Send (GetItem "Movies" id)] |}).
Proof.
  intros Hp Hflag Hq Hg. unfold invoke, handler. rewrite Hp.
  unfold try_catch, bind, send. cbn [calls trace app].
  rewrite Hq, Hflag. cbn [calls trace app]. rewrite Hg.
  now destruct found.
Qed.

(** C4. When [movieId] is missing or is not the text of an integer, the
    handler returns status 400, a 4xx status, with a body that carries
    the description of the invalid parameter, and the invocation has
    performed no effect: no command was sent and the client has served
    no call. *)
Theorem cast_lookup_rejects_invalid_movieId
    (p : parameters) (rt : runtime request reply) (n : nat) :
  (movieId p = None \/
   exists raw, movieId p = Some raw /\ parse_integer raw = None) ->
  exists resp w,
    invoke (handler merge describe_invalid p) rt n = (Normal resp, w) /\
    statusCode resp = 400 /\
    400 <= statusCode resp < 500 /\
    body resp = stringify (VObj [("error", describe_invalid (movieId p))]) /\
    commands_sent (trace w) = [] /\
    trace w = [] /\
    calls w = n.
Proof.
  intros Hbad.
  assert (valid_movieId p = None) as Hp.
  { unfold valid_movieId. destruct Hbad as [->|(raw & -> & Hraw)]; [reflexivity|exact Hraw]. }
  eexists _, _. split; [apply (cast_run_invalid _ _ _ Hp)|].
  cbn [statusCode body trace calls error_response].
  repeat split; lia.
Qed.

(** C5. When [movieId] is the text of an integer and the cast query
    returns no row, the handler returns status 200, neither 404 nor 500,
    and the body is the text [{"data":[]}]. *)
Theorem cast_lookup_no_cast_is_empty_success
    (p : parameters) (rt : runtime request reply) (n : nat) (id : Z) :
  valid_movieId p = Some id ->
  ddbDocClient rt n (cast_query id p) = Resolved [] ->
  exists resp w,
    invoke (handler merge describe_invalid p) rt n = (Normal resp, w) /\
    statusCode resp = 200 /\
    statusCode resp <> 404 /\
    statusCode resp <> 500 /\
    body resp = stringify (VObj [("data", VArr [])]) /\
    body resp = Some ("{" +:+ quoted "data" +:+ ":[]}").
Proof.
  intros Hp Hq.
  eexists _, _. split; [apply (cast_run_no_rows _ _ _ _ Hp Hq)|].
  cbn [statusCode body data_response].
  repeat split; lia.
Qed.

(** C6. With the enrichment flag set, an integer [movieId], cast rows
    returned by the query and no movie found by the point lookup, the
    handler returns status 200 and the body is the text of the rows as
    the query returned them. *)
Theorem cast_lookup_missing_movie_degrades
    (p : parameters) (rt : runtime request reply) (n : nat) (id : Z)
    (row : value) (rows : list value) :
  includeMovieMetadata p = true ->
  valid_movieId p = Some id ->
  ddbDocClient rt n (cast_query id p) = Resolved (row :: rows) ->
  ddbDocClient rt (S n) (GetItem "Movies" id) = Resolved None ->
  exists resp w,
    invoke (handler merge describe_invalid p) rt n = (Normal resp, w) /\
    statusCode resp = 200 /\
    body resp = stringify (VObj [("data", VArr (row :: rows))]) /\
    body resp = Some (data_text (row :: rows)).
Proof.
  intros Hflag Hp Hq Hg.
  eexists _, _. split; [apply (cast_run_lookup _ _ _ _ _ _ _ Hp Hflag Hq Hg)|].
  cbn [statusCode body data_response].
  repeat split. apply stringify_data.
Qed.

(** C7. With the enrichment flag set, an integer [movieId], cast rows
    returned by the query and the movie found by the point lookup: the
    handler returns status 200; the returned list is the list of the
    rows each merged with that movie by the one merge function, at every
    position; and any other invocation with these parameters to which
    the store gives the same rows and the same movie returns the same
    response. *)
Theorem cast_lookup_enriches_every_row
    (p : parameters) (rt rt' : runtime request reply) (n n' : nat) (id : Z)
    (row movie : value) (rows : list value) :
  includeMovieMetadata p = true ->
  valid_movieId p = Some id ->
  ddbDocClient rt n (cast_query id p) = Resolved (row :: rows) ->
  ddbDocClient rt (S n) (GetItem "Movies" id) = Resolved (Some movie) ->
  ddbDocClient rt' n' (cast_query id p) = Resolved (row :: rows) ->
  ddbDocClient rt' (S n') (GetItem "Movies" id) = Resolved (Some movie) ->
  exists resp enriched,
    fst (invoke (handler merge describe_invalid p) rt n) = Normal resp /\
    fst (invoke (handler merge describe_invalid p) rt' n') = Normal resp /\
    statusCode resp = 200 /\
    body resp = Some (data_text enriched) /\
    List.length enriched = List.length (row :: rows) /\
    forall (i : nat) (r : value),
      (row :: rows) !! i = Some r -> enriched !! i = Some (merge movie r).
Proof.
  intros Hflag Hp Hq Hg Hq' Hg'.
  exists (data_response (List.map (merge movie) (row :: rows))),
         (List.map (merge movie) (row :: rows)).
  rewrite (cast_run_lookup _ _ _ _ _ _ _ Hp Hflag Hq Hg).
  rewrite (cast_run_lookup _ _ _ _ _ _ _ Hp Hflag Hq' Hg').
  cbn [fst statusCode body data_response].
  repeat split.
  - apply stringify_data.
  - apply length_map.
  - intros i r Hr.
    change (List.map (merge movie) (row :: rows)) with (merge movie <$> (row :: rows)).
    now rewrite list_lookup_fmap, Hr.
Qed.

End CastLookupFacts.

(** Witness of C4: [movieId=abc]. *)
Lemma cast_lookup_rejects_invalid_movieId_witness :
  (CastLookup.movieId
     {| CastLookup.movieId := Some "abc"; CastLookup.actorName := None;
        CastLookup.roleName := None; CastLookup.includeMovieMetadata := false |} = None \/
   exists raw,
     CastLookup.movieId
       {| CastLookup.movieId := Some "abc"; CastLookup.actorName := None;
          CastLookup.roleName := None; CastLookup.includeMovieMetadata := false |} = Some raw /\
     CastLookup.parse_integer raw = None) /\
  exists resp w,
    invoke (CastLookup.handler CastLookup.nest_under_movie CastLookup.describe_movieId
              {| CastLookup.movieId := Some "abc"; CastLookup.actorName := None;
                 CastLookup.roleName := None; CastLookup.includeMovieMetadata := false |})
      (Fixtures.cast_runtime [Fixtures.movie_A] [Fixtures.cast_X]) 0 = (Normal resp, w) /\
    statusCode resp = 400 /\
    400 <= statusCode resp < 500 /\
    body resp = stringify (VObj [("error", CastLookup.describe_movieId (Some "abc"))]) /\
    commands_sent (trace w) = [] /\
    trace w = [] /\
    calls w = 0%nat.
Proof.
  assert (CastLookup.movieId
            {| CastLookup.movieId := Some "abc"; CastLookup.actorName := None;
               CastLookup.roleName := None; CastLookup.includeMovieMetadata := false |} = None \/
          exists raw,
            CastLookup.movieId
              {| CastLookup.movieId := Some "abc"; CastLookup.actorName := None;
                 CastLookup.roleName := None; CastLookup.includeMovieMetadata := false |} = Some raw /\
            CastLookup.parse_integer raw = None) as Hbad.
  { right. exists "abc". split; reflexivity. }
  split; [exact Hbad|].
  exact (cast_lookup_rejects_invalid_movieId
           CastLookup.nest_under_movie CastLookup.describe_movieId
           {| CastLookup.movieId := Some "abc"; CastLookup.actorName := None;
              CastLookup.roleName := None; CastLookup.includeMovieMetadata := false |}
           (Fixtures.cast_runtime [Fixtures.movie_A] [Fixtures.cast_X]) 0 Hbad).
Defined.

(** Witness of C5: [movieId=999], no such movie and no such cast. *)
Lemma cast_lookup_no_cast_is_empty_success_witness :
  CastLookup.valid_movieId
    {| CastLookup.movieId := Some "999"; CastLookup.actorName := None;
       CastLookup.roleName := None; CastLookup.includeMovieMetadata := false |} = Some 999 /\
  ddbDocClient (Fixtures.cast_runtime [Fixtures.movie_A] [Fixtures.cast_X]) 0
    (CastLookup.cast_query 999
       {| CastLookup.movieId := Some "999"; CastLookup.actorName := None;
          CastLookup.roleName := None; CastLookup.includeMovieMetadata := false |}) =
    Resolved [] /\
  exists resp w,
    invoke (CastLookup.handler CastLookup.nest_under_movie CastLookup.describe_movieId
              {| CastLookup.movieId := Some "999"; CastLookup.actorName := None;
                 CastLookup.roleName := None; CastLookup.includeMovieMetadata := false |})
      (Fixtures.cast_runtime [Fixtures.movie_A] [Fixtures.cast_X]) 0 = (Normal resp, w) /\
    statusCode resp = 200 /\
    statusCode resp <> 404 /\
    statusCode resp <> 500 /\
    body resp = stringify (VObj [("data", VArr [])]) /\
    body resp = Some ("{" +:+ quoted "data" +:+ ":[]}").
Proof.
  split; [reflexivity|]. split; [reflexivity|].
  apply (cast_lookup_no_cast_is_empty_success
           CastLookup.nest_under_movie CastLookup.describe_movieId
           {| CastLookup.movieId := Some "999"; CastLookup.actorName := None;
              CastLookup.roleName := None; CastLookup.includeMovieMetadata := false |}
           (Fixtures.cast_runtime [Fixtures.movie_A] [Fixtures.cast_X]) 0 999);
    reflexivity.
Defined.

(** Witness of C6: a cast row of movie 7, and no movie 7. *)
Lemma cast_lookup_missing_movie_degrades_witness :
  CastLookup.includeMovieMetadata
    {| CastLookup.movieId := Some "7"; CastLookup.actorName := None;
       CastLookup.roleName := None; CastLookup.includeMovieMetadata := true |} = true /\
  CastLookup.valid_movieId
    {| CastLookup.movieId := Some "7"; CastLookup.actorName := None;
       CastLookup.roleName := None; CastLookup.includeMovieMetadata := true |} = Some 7 /\
  ddbDocClient
    (Fixtures.cast_runtime [Fixtures.movie_A] [Fixtures.cast_X; Fixtures.cast_orphan]) 0
    (CastLookup.cast_query 7
       {| CastLookup.movieId := Some "7"; CastLookup.actorName := None;
          CastLookup.roleName := None; CastLookup.includeMovieMetadata := true |}) =
    Resolved [Fixtures.cast_orphan] /\
  ddbDocClient
    (Fixtures.cast_runtime [Fixtures.movie_A] [Fixtures.cast_X; Fixtures.cast_orphan]) 1
    (CastLookup.GetItem "Movies" 7) = Resolved None /\
  exists resp w,
    invoke (CastLookup.handler CastLookup.nest_under_movie CastLookup.describe_movieId
              {| CastLookup.movieId := Some "7"; CastLookup.actorName := None;
                 CastLookup.roleName := None; CastLookup.includeMovieMetadata := true |})
      (Fixtures.cast_runtime [Fixtures.movie_A] [Fixtures.cast_X; Fixtures.cast_orphan]) 0 =
      (Normal resp, w) /\
    statusCode resp = 200 /\
    body resp = stringify (VObj [("data", VArr [Fixtures.cast_orphan])]) /\
    body resp = Some (data_text [Fixtures.cast_orphan]).
Proof.
  split; [reflexivity|]. split; [reflexivity|].
  split; [reflexivity|]. split; [reflexivity|].
  apply (cast_lookup_missing_movie_degrades
           CastLookup.nest_under_movie CastLookup.describe_movieId
           {| CastLookup.movieId := Some "7"; CastLookup.actorName := None;
              CastLookup.roleName := None; CastLookup.includeMovieMetadata := true |}
           (Fixtures.cast_runtime [Fixtures.movie_A] [Fixtures.cast_X; Fixtures.cast_orphan])
           0 7 Fixtures.cast_orphan []); reflexivity.
Defined.

(** Witness of C7: movie 1 with its two cast rows, looked up twice on the
    same two collections. *)
Lemma cast_lookup_enriches_every_row_witness :
  CastLookup.includeMovieMetadata
    {| CastLookup.movieId := Some "1"; CastLookup.actorName := None;
       CastLookup.roleName := None; CastLookup.includeMovieMetadata := true |} = true /\
  CastLookup.valid_movieId
    {| CastLookup.movieId := Some "1"; CastLookup.actorName := None;
       CastLookup.roleName := None; CastLookup.includeMovieMetadata := true |} = Some 1 /\
  ddbDocClient
    (Fixtures.cast_runtime [Fixtures.movie_A; Fixtures.movie_B]
       [Fixtures.cast_X; Fixtures.cast_orphan; Fixtures.cast_Y]) 0
    (CastLookup.cast_query 1
       {| CastLookup.movieId := Some "1"; CastLookup.actorName := None;
          CastLookup.roleName := None; CastLookup.includeMovieMetadata := true |}) =
    Resolved [Fixtures.cast_X; Fixtures.cast_Y] /\
  ddbDocClient
    (Fixtures.cast_runtime [Fixtures.movie_A; Fixtures.movie_B]
       [Fixtures.cast_X; Fixtures.cast_orphan; Fixtures.cast_Y]) 1
    (CastLookup.GetItem "Movies" 1) = Resolved (Some Fixtures.movie_A) /\
  exists resp enriched,
    fst (invoke (CastLookup.handler CastLookup.nest_under_movie CastLookup.describe_movieId
                   {| CastLookup.movieId := Some "1"; CastLookup.actorName := None;
                      CastLookup.roleName := None; CastLookup.includeMovieMetadata := true |})
           (Fixtures.cast_runtime [Fixtures.movie_A; Fixtures.movie_B]
              [Fixtures.cast_X; Fixtures.cast_orphan; Fixtures.cast_Y]) 0) = Normal resp /\
    fst (invoke (CastLookup.handler CastLookup.nest_under_movie CastLookup.describe_movieId
                   {| CastLookup.movieId := Some "1"; CastLookup.actorName := None;
                      CastLookup.roleName := None; CastLookup.includeMovieMetadata := true |})
           (Fixtures.cast_runtime [Fixtures.movie_A; Fixtures.movie_B]
              [Fixtures.cast_X; Fixtures.cast_orphan; Fixtures.cast_Y]) 5) = Normal resp /\
    statusCode resp = 200 /\
    body resp = Some (data_text enriched) /\
    List.length enriched = List.length [Fixtures.cast_X; Fixtures.cast_Y] /\
    forall (i : nat) (r : value),
      [Fixtures.cast_X; Fixtures.cast_Y] !! i = Some r ->
      enriched !! i = Some (CastLookup.nest_under_movie Fixtures.movie_A r).
Proof.
  split; [reflexivity|]. split; [reflexivity|].
  split; [reflexivity|]. split; [reflexivity|].
  apply (cast_lookup_enriches_every_row
           CastLookup.nest_under_movie CastLookup.describe_movieId
           {| CastLookup.movieId := Some "1"; CastLookup.actorName := None;
              CastLookup.roleName := None; CastLookup.includeMovieMetadata := true |}
           (Fixtures.cast_runtime [Fixtures.movie_A; Fixtures.movie_B]
              [Fixtures.cast_X; Fixtures.cast_orphan; Fixtures.cast_Y])
           (Fixtures.cast_runtime [Fixtures.movie_A; Fixtures.movie_B]
              [Fixtures.cast_X; Fixtures.cast_orphan; Fixtures.cast_Y])
           0 5 1 Fixtures.cast_X Fixtures.movie_A [Fixtures.cast_Y]); reflexivity.
Defined.

(* ===================================================================== *)
(** ** Scenarios *)
(* ===================================================================== *)

(** One run of the Movie Lookup handler, effects included: the event is
    logged, the scan is sent, its output is logged, the page comes back
    under [data]. *)
Example movie_lookup_run :
  invoke (GetMovieById.handler VNull VUndefined)
    (Fixtures.deployed (Fixtures.movies_store [Fixtures.item_A])) 0 =
  (Normal {| statusCode := 200;
             headers := [("content-type", "application/json")];
             body := Some ("{" +:+ quoted "data" +:+ ":[{" +:+ quoted "id" +:+ ":1," +:+
                           quoted "title" +:+ ":" +:+ quoted "A" +:+ "}]}") |},
   {| calls := 1;
      trace := [ConsoleLog [LogValue (VStr "Event: "); LogValue (VStr "null")];
                Send (GetMovieById.scanCommand "Movies");
                ConsoleLog [LogValue (VStr "ScanCommand response: ");
                            LogOutput (GetMovieById.scanCommand "Movies")
                              (Fixtures.page [Fixtures.item_A])]] |}).
Proof. reflexivity. Qed.

(** A row with an integer that is not a safe one: the scan succeeds, its
    output is logged, then [JSON.stringify] throws at the [BigInt], the
    catch logs the TypeError and answers 500. *)
Example movie_lookup_run_bigint :
  invoke (GetMovieById.handler VNull VUndefined)
    (Fixtures.deployed (Fixtures.movies_store [Fixtures.item_big])) 0 =
  (Normal {| statusCode := 500;
             headers := [("content-type", "application/json")];
             body := Some ("{" +:+ quoted "error" +:+ ":{}}") |},
   {| calls := 1;
      trace := [ConsoleLog [LogValue (VStr "Event: "); LogValue (VStr "null")];
                Send (GetMovieById.scanCommand "Movies");
                ConsoleLog [LogValue (VStr "ScanCommand response: ");
                            LogOutput (GetMovieById.scanCommand "Movies")
                              (Fixtures.page [Fixtures.item_big])];
                ConsoleError [LogValue (VStr "{}")]] |}).
Proof. reflexivity. Qed.

(** A store that names no [Movies] table: the rejection becomes the body
    of a 500 response. *)
Example movie_lookup_run_rejected :
  fst (invoke (GetMovieById.handler VNull VUndefined)
         (Fixtures.deployed (fun _ _ => Rejected Fixtures.not_found)) 3) =
  Normal {| statusCode := 500;
            headers := [("content-type", "application/json")];
            body := Some ("{" +:+ quoted "error" +:+ ":{" +:+ quoted "name" +:+ ":" +:+
                          quoted "ResourceNotFoundException" +:+ "," +:+
                          quoted "$fault" +:+ ":" +:+ quoted "client" +:+ "}}") |}.
Proof. reflexivity. Qed.

(** A scan output without [Items]: the property [data] is undefined and
    is left out of the body. *)
Example movie_lookup_run_without_items :
  fst (invoke (GetMovieById.handler VNull VUndefined)
         (Fixtures.deployed (fun _ _ => Resolved (Fixtures.count_only 0))) 0) =
  Normal {| statusCode := 200;
            headers := [("content-type", "application/json")];
            body := Some "{}" |}.
Proof. reflexivity. Qed.

(** Section 8: movie 1 titled A with the cast row X as Hero; the lookup
    by role with the metadata flag returns that one row, with the title
    merged in under either policy. *)
Example cast_lookup_scenario_nested :
  fst (invoke (CastLookup.handler CastLookup.nest_under_movie CastLookup.describe_movieId
                 {| CastLookup.movieId := Some "1"; CastLookup.actorName := None;
                    CastLookup.roleName := Some "Hero";
                    CastLookup.includeMovieMetadata := true |})
         (Fixtures.cast_runtime [Fixtures.movie_A] [Fixtures.cast_X]) 0) =
    Normal (CastLookup.data_response
              [CastLookup.nest_under_movie Fixtures.movie_A Fixtures.cast_X]) /\
  CastLookup.field "actorName"
    (CastLookup.nest_under_movie Fixtures.movie_A Fixtures.cast_X) = VStr "X" /\
  CastLookup.field "roleName"
    (CastLookup.nest_under_movie Fixtures.movie_A Fixtures.cast_X) = VStr "Hero" /\
  CastLookup.field "title"
    (CastLookup.field "movie"
       (CastLookup.nest_under_movie Fixtures.movie_A Fixtures.cast_X)) = VStr "A".
Proof. repeat split. Qed.

Example cast_lookup_scenario_flattened :
  fst (invoke (CastLookup.handler CastLookup.flatten CastLookup.describe_movieId
                 {| CastLookup.movieId := Some "1"; CastLookup.actorName := None;
                    CastLookup.roleName := Some "Hero";
                    CastLookup.includeMovieMetadata := true |})
         (Fixtures.cast_runtime [Fixtures.movie_A] [Fixtures.cast_X]) 0) =
    Normal (CastLookup.data_response
              [CastLookup.flatten Fixtures.movie_A Fixtures.cast_X]) /\
  CastLookup.field "actorName"
    (CastLookup.flatten Fixtures.movie_A Fixtures.cast_X) = VStr "X" /\
  CastLookup.field "roleName"
    (CastLookup.flatten Fixtures.movie_A Fixtures.cast_X) = VStr "Hero" /\
  CastLookup.field "title"
    (CastLookup.flatten Fixtures.movie_A Fixtures.cast_X) = VStr "A".
Proof. repeat split. Qed.

(** A store error during the movie lookup of the enrichment path becomes
    a 500 response that echoes it. *)
Example cast_lookup_store_error :
  fst (invoke (CastLookup.handler CastLookup.flatten CastLookup.describe_movieId
                 {| CastLookup.movieId := Some "1"; CastLookup.actorName := None;
                    CastLookup.roleName := None;
                    CastLookup.includeMovieMetadata := true |})
         {| env := ∅;
            ddbDocClient := fun n r =>
              match r return settled (CastLookup.reply r) with
              | CastLookup.Query _ _ _ _ => Resolved [Fixtures.cast_X]
              | CastLookup.GetItem _ _ => Rejected Fixtures.not_found
              end |} 0) =
  Normal (CastLookup.error_response 500 Fixtures.not_found).
Proof. reflexivity. Qed.

(* ===================================================================== *)
(** ** More on the Movie Lookup handler *)
(* ===================================================================== *)

Section MovieLookupMore.
Import GetMovieById.

(** X1. The handler reads [Items] and nothing else of the scan output,
    and it does not page: when two scans resolve with the same [Items],
    whatever their counts and whether or not a [LastEvaluatedKey] says
    that more records remain, the responses are equal, and the one
    command sent is the scan without a start key. *)
Theorem movie_lookup_first_page_only
    (rt1 rt2 : store_runtime) (n1 n2 : nat)
    (event1 context1 event2 context2 : value)
    (out1 out2 : ScanCommandOutput) :
  ddbDocClient rt1 n1 (scanCommand "Movies") = Resolved out1 ->
  ddbDocClient rt2 n2 (scanCommand "Movies") = Resolved out2 ->
  Items out1 = Items out2 ->
  fst (invoke (handler event1 context1) rt1 n1) =
  fst (invoke (handler event2 context2) rt2 n2) /\
  commands_sent (trace (snd (invoke (handler event1 context1) rt1 n1))) =
    [scanCommand "Movies"] /\
  ExclusiveStartKey (scanCommand "Movies") = None.
Proof.
  intros H1 H2 Hitems.
  split; [|split; [apply handler_sends_one_scan|reflexivity]].
  rewrite !handler_run, H1, H2, Hitems.
  now destruct (JSON_stringify_data (Items out2)).
Qed.

(** X2. When the scan resolves with an output that has no [Items], the
    response is still status 200 and the body is the empty object: the
    [data] property is undefined and is left out. *)
Theorem movie_lookup_without_items
    (rt : store_runtime) (n : nat) (event context : value)
    (out : ScanCommandOutput) :
  ddbDocClient rt n (scanCommand "Movies") = Resolved out ->
  Items out = None ->
  fst (invoke (handler event context) rt n) =
  Normal {| statusCode := 200;
            headers := [("content-type", "application/json")];
            body := Some "{}" |}.
Proof.
  intros Hout Hitems.
  now rewrite handler_run, Hout, Hitems.
Qed.


(** X4. What an invocation does, in order, and nothing else: it logs
    the stringified event, then sends the scan; if the scan is resolved
    it logs, on [console.log], the very output the store gave, and then,
    only if a row holds a [BigInt], it writes the stringified TypeError
    to [console.error]; if the scan is rejected it writes the stringified
    error to [console.error]. *)
Theorem movie_lookup_console
    (rt : store_runtime) (n : nat) (event context : value) :
  trace (snd (invoke (handler event context) rt n)) =
  match ddbDocClient rt n (scanCommand "Movies") with
  | Resolved out =>
      ([ConsoleLog [LogValue (VStr "Event: "); LogValue (stringified event)];
        Send (scanCommand "Movies");
        ConsoleLog [LogValue (VStr "ScanCommand response: ");
                    LogOutput (scanCommand "Movies") out]] ++
       (if Items_hold_BigInt out
        then [ConsoleError [LogValue (stringified TypeError)]]
        else []))%list
  | Rejected error =>
      [ConsoleLog [LogValue (VStr "Event: "); LogValue (stringified event)];
       Send (scanCommand "Movies");
       ConsoleError [LogValue (stringified error)]]
  end.
Proof.
  rewrite handler_run.
  destruct (ddbDocClient rt n (scanCommand "Movies")) as [out|error];
    [|reflexivity].
  destruct (Items_hold_BigInt out) eqn:Hbig.
  - now rewrite (JSON_stringify_data_throws out Hbig).
  - destruct (JSON_stringify_data_text out Hbig) as (props & text & -> & _).
    reflexivity.
Qed.

End MovieLookupMore.

(* ===================================================================== *)
(** ** Several invocations on one instance *)
(* ===================================================================== *)

Section WarmInstance.
Import GetMovieById Instance.

Lemma commands_sent_app {Cmd : Type} {Out : Cmd -> Type}
    (a b : list (effect Cmd Out)) :
  commands_sent (a ++ b) = (commands_sent a ++ commands_sent b)%list.
Proof.
  unfold commands_sent.
  induction a as [|e a IH]; [reflexivity|].
  cbn [app filter_map]. destruct e; cbn [app]; now rewrite IH.
Qed.

(** The handler started in any world: it completes normally, with the
    response a fresh invocation would give at that call count, after one
    more call and one more command. *)
Lemma handler_from (rt : store_runtime) (w : store_world)
    (event context : value) :
  exists resp w',
    handler event context rt w = (Normal resp, w') /\
    fst (invoke (handler event context) rt (calls w)) = Normal resp /\
    calls w' = S (calls w) /\
    commands_sent (trace w') =
      (commands_sent (trace w) ++ [scanCommand "Movies"])%list.
Proof.
  rewrite handler_run, handler_run_from.
  destruct (ddbDocClient rt (calls w) (scanCommand "Movies")) as [out|error];
    [destruct (JSON_stringify_data (Items out))|];
    eexists _, _; (split; [reflexivity|]);
    cbn [fst calls trace]; repeat split;
    now rewrite commands_sent_app.
Qed.

Lemma serve_from (rt : store_runtime) (requests : list (value * value)) :
  forall w : store_world,
  exists responses w',
    serve requests rt w = (Normal responses, w') /\
    calls w' = (calls w + length requests)%nat /\
    commands_sent (trace w') =
      (commands_sent (trace w) ++
       replicate (length requests) (scanCommand "Movies"))%list /\
    length responses = length requests /\
    forall (i : nat) (event context : value),
      requests !! i = Some (event, context) ->
      exists resp,
        responses !! i = Some resp /\
        fst (invoke (handler event context) rt (calls w + i)%nat) = Normal resp.
Proof.
  induction requests as [|[event context] rest IH]; intros w.
  - exists [], w. cbn [serve length replicate]. unfold ret.
    repeat split; [lia|now rewrite app_nil_r|].
    intros i e c Hi. now rewrite lookup_nil in Hi.
  - destruct (handler_from rt w event context)
      as (resp & w1 & Hrun & Hfresh & Hcalls & Hsent).
    destruct (IH w1) as (others & w2 & Hrest & Hcalls2 & Hsent2 & Hlen & Hith).
    exists (resp :: others), w2.
    cbn [serve]. unfold bind at 1. rewrite Hrun.
    unfold bind at 1. rewrite Hrest. unfold ret.
    split; [reflexivity|].
    split; [cbn [length]; lia|].
    split.
    { rewrite Hsent2, Hsent, <- app_assoc. reflexivity. }
    split; [cbn [length]; now rewrite Hlen|].
    intros [|i] e c Hi.
    + cbn in Hi. injection Hi as <- <-.
      exists resp. split; [reflexivity|].
      now rewrite Nat.add_0_r.
    + cbn in Hi. destruct (Hith i e c Hi) as (r & Hr & Hfr).
      exists r. split; [exact Hr|].
      now replace (calls w + S i)%nat with (calls w1 + i)%nat by lia.
Qed.

(** X5. Requests served one after the other by one instance: every one
    gets a response, none ends in an exception; the store is called once
    per request, always with the scan of [Movies]; and the response to
    the [i]-th request is the response of a fresh invocation at that
    moment, so a request that failed leaves no mark on the ones after
    it. *)
Theorem serve_isolates_requests
    (rt : store_runtime) (n : nat) (requests : list (value * value)) :
  exists responses w,
    invoke (serve requests) rt n = (Normal responses, w) /\
    length responses = length requests /\
    calls w = (n + length requests)%nat /\
    commands_sent (trace w) =
      replicate (length requests) (scanCommand "Movies") /\
    forall (i : nat) (event context : value),
      requests !! i = Some (event, context) ->
      exists resp,
        responses !! i = Some resp /\
        fst (invoke (handler event context) rt (n + i)%nat) = Normal resp.
Proof.
  destruct (serve_from rt requests {| calls := n; trace := [] |})
    as (responses & w & Hrun & Hcalls & Hsent & Hlen & Hith).
  exists responses, w. unfold invoke.
  repeat split; assumption.
Qed.

End WarmInstance.

(* ===================================================================== *)
(** ** The text of a body *)
(* ===================================================================== *)

Section BodyText.
Import GetMovieById Instance.

Lemma value_nested_ind (P : value -> Prop) :
  P VUndefined -> P VNull ->
  (forall b, P (VBool b)) ->
  (forall n safe, P (VNum n safe)) ->
  (forall s, P (VStr s)) ->
  (forall elems, Forall P elems -> P (VArr elems)) ->
  (forall props, Forall (fun kv => P (snd kv)) props -> P (VObj props)) ->
  forall v, P v.
Proof.
  intros Hu Hn Hb Hz Hs Ha Ho.
  fix IH 1.
  intros [ | | b | n safe | s | elems | props].
  - exact Hu.
  - exact Hn.
  - apply Hb.
  - apply Hz.
  - apply Hs.
  - apply Ha.
    refine ((fix go (l : list value) : Forall P l :=
               match l with
               | [] => List.Forall_nil _
               | x :: rest => List.Forall_cons _ x rest (IH x) (go rest)
               end) elems).
  - apply Ho.
    refine ((fix go (l : list (string * value))
               : Forall (fun kv => P (snd kv)) l :=
               match l with
               | [] => List.Forall_nil _
               | kv :: rest => List.Forall_cons _ kv rest (IH (snd kv)) (go rest)
               end) props).
Qed.

Lemma no_control_app (a b : string) :
  no_control (a +:+ b) = no_control a && no_control b.
Proof.
  induction a as [|c a IH]; [reflexivity|].
  change (no_control (String c (a +:+ b)) =
          no_control (String c a) && no_control b).
  cbn [no_control]. rewrite IH. now rewrite andb_assoc.
Qed.

Lemma no_control_escape_char (c : ascii) : no_control (escape_char c) = true.
Proof.
  destruct c as [[|] [|] [|] [|] [|] [|] [|] [|]]; vm_compute; reflexivity.
Qed.

Lemma no_control_escape (s : string) : no_control (escape s) = true.
Proof.
  induction s as [|c s IH]; [reflexivity|].
  cbn [escape]. now rewrite no_control_app, no_control_escape_char, IH.
Qed.

Lemma no_control_quoteJSONString (s : string) :
  no_control (quoteJSONString s) = true.
Proof.
  unfold quoteJSONString. cbn [no_control].
  rewrite no_control_app, no_control_escape. reflexivity.
Qed.

Lemma no_control_uint (d : Decimal.uint) :
  no_control (NilEmpty.string_of_uint d) = true.
Proof.
  induction d; cbn [NilEmpty.string_of_uint no_control]; auto.
Qed.

Lemma no_control_number (n : Z) (safe : isSafeInteger n = true) :
  no_control (number_to_string n safe) = true.
Proof.
  unfold number_to_string, NilZero.string_of_int.
  destruct (Z.to_int n) as [d|d]; cbn [no_control].
  - destruct d; try reflexivity; apply no_control_uint.
  - destruct d; try reflexivity; apply no_control_uint.
Qed.

Lemma no_control_join (sep : string) (parts : list string) :
  no_control sep = true ->
  Forall (fun p => no_control p = true) parts ->
  no_control (join sep parts) = true.
Proof.
  intros Hsep Hparts.
  induction Hparts as [|p rest Hp Hrest IH]; [reflexivity|].
  destruct rest as [|q rest']; [exact Hp|].
  change (join sep (p :: q :: rest')) with (p +:+ sep +:+ join sep (q :: rest')).
  now rewrite !no_control_app, Hp, Hsep, IH.
Qed.

(** Whatever the value, the text [JSON.stringify] gives for it has no
    control character: those of its strings and keys are escaped. *)
Lemma stringify_no_control (v : value) :
  forall text, stringify v = Some text -> no_control text = true.
Proof.
  induction v as [ | | b | n safe | s | elems IH | props IH] using value_nested_ind;
    intros text Htext; cbn [stringify] in Htext.
  - discriminate.
  - now injection Htext as <-.
  - destruct b; now injection Htext as <-.
  - injection Htext as <-. apply no_control_number.
  - injection Htext as <-. apply no_control_quoteJSONString.
  - injection Htext as <-.
    match goal with
    | |- context [join ?sep ?parts] =>
        assert (no_control (join sep parts) = true) as Hjoin
    end.
    { apply no_control_join; [reflexivity|].
      induction IH as [|x rest Hx Hrest IHrest]; cbn [List.map]; constructor.
      - destruct (stringify x) as [sx|] eqn:Hsx; [now apply Hx|reflexivity].
      - exact IHrest. }
    rewrite !no_control_app, Hjoin. reflexivity.
  - injection Htext as <-.
    match goal with
    | |- context [join ?sep ?parts] =>
        assert (no_control (join sep parts) = true) as Hjoin
    end.
    { apply no_control_join; [reflexivity|].
      induction IH as [|[k x] rest Hx Hrest IHrest]; cbn [filter_map fst snd].
      - constructor.
      - cbn [snd] in Hx.
        destruct (stringify x) as [sx|] eqn:Hsx; [|exact IHrest].
        constructor; [|exact IHrest].
        rewrite !no_control_app, no_control_quoteJSONString, (Hx sx eq_refl).
        reflexivity. }
    rewrite !no_control_app, Hjoin. reflexivity.
Qed.

(** X6. The body of every response is one line of text: it has no
    control character, no line break among them, whatever the records of
    the table or the error of the store hold, since [JSON.stringify] is
    called without indentation and escapes what the strings contain. *)
Theorem movie_lookup_body_one_line
    (rt : store_runtime) (n : nat) (event context : value)
    (resp : response) (w : world ScanCommandInput) :
  invoke (handler event context) rt n = (Normal resp, w) ->
  exists text, body resp = Some text /\ no_control text = true.
Proof.
  intros Hrun. rewrite handler_run in Hrun.
  destruct (ddbDocClient rt n (scanCommand "Movies")) as [out|error].
  - destruct (Items_hold_BigInt out) eqn:Hbig.
    + rewrite (JSON_stringify_data_throws out Hbig) in Hrun.
      injection Hrun as <- _. cbn [body].
      destruct (stringify_object_some [("error", TypeError)]) as [text Ht].
      exists text. split; [exact Ht|]. exact (stringify_no_control _ _ Ht).
    + destruct (JSON_stringify_data_text out Hbig) as (props & text & Htext & Ht).
      rewrite Htext in Hrun.
      injection Hrun as <- _. cbn [body].
      exists text. split; [reflexivity|]. exact (stringify_no_control _ _ Ht).
  - injection Hrun as <- _. cbn [body].
    destruct (stringify_object_some [("error", error)]) as [text Ht].
    exists text. split; [exact Ht|]. exact (stringify_no_control _ _ Ht).
Qed.

End BodyText.

(* ===================================================================== *)
(** ** The handler in the deployed stack *)
(* ===================================================================== *)

Section Deployed.
Import GetMovieById Instance.

(** X7. In the function the stack deploys, the values the module
    hard-codes are the ones the stack puts in the environment: every
    command the handler sends names the table of [TABLE_NAME], and the
    client is created for the region of [REGION]. *)
Theorem deployed_handler_matches_environment
    (store : nat -> ScanCommandInput -> settled ScanCommandOutput)
    (n : nat) (event context : value) :
  Forall (fun c => env (Fixtures.deployed store) !! "TABLE_NAME" = Some (TableName c))
    (commands_sent
       (trace (snd (invoke (handler event context) (Fixtures.deployed store) n)))) /\
  env (Fixtures.deployed store) !! "REGION" =
    Some (region (ddbClient createDDbDocClient)).
Proof.
  split.
  - destruct (handler_sends_one_scan (Fixtures.deployed store) n event context)
      as [-> _].
    constructor; [vm_compute; reflexivity|constructor].
  - vm_compute; reflexivity.
Qed.

(** X8. Every command the handler sends is a scan of a table the stack
    creates and on which the stack grants the function read access. *)
Theorem deployed_handler_reads_granted_table
    (rt : store_runtime) (n : nat) (event context : value) :
  Forall (fun c =>
            exists table,
              In table Grants.tables /\
              Stack.tableName table = TableName c /\
              In (table, Stack.getMovieByIdFn) Grants.grantReadData)
    (commands_sent (trace (snd (invoke (handler event context) rt n)))).
Proof.
  destruct (handler_sends_one_scan rt n event context) as [-> _].
  constructor; [|constructor].
  exists Stack.moviesTable. cbn. auto.
Qed.

End Deployed.

(** Witness of X1: one page of one movie, once as the whole table and
    once with a key that says more remains. *)
Lemma movie_lookup_first_page_only_witness :
  ddbDocClient (Fixtures.deployed (Fixtures.movies_store [Fixtures.item_A]))
    0 (GetMovieById.scanCommand "Movies") = Resolved (Fixtures.page [Fixtures.item_A]) /\
  ddbDocClient
    (Fixtures.deployed
       (fun _ _ => Resolved (Fixtures.partial_page [Fixtures.item_A]
                               (NativeObject [("id", NativeNumber 1 eq_refl)]))))
    2 (GetMovieById.scanCommand "Movies") =
    Resolved (Fixtures.partial_page [Fixtures.item_A]
                (NativeObject [("id", NativeNumber 1 eq_refl)])) /\
  Items (Fixtures.page [Fixtures.item_A]) =
  Items (Fixtures.partial_page [Fixtures.item_A]
           (NativeObject [("id", NativeNumber 1 eq_refl)])) /\
  fst (invoke (GetMovieById.handler Fixtures.get_event VNull)
         (Fixtures.deployed (Fixtures.movies_store [Fixtures.item_A])) 0) =
  fst (invoke (GetMovieById.handler VNull VNull)
         (Fixtures.deployed
            (fun _ _ => Resolved (Fixtures.partial_page [Fixtures.item_A]
                                    (NativeObject [("id", NativeNumber 1 eq_refl)]))))
         2) /\
  commands_sent
    (trace (snd (invoke (GetMovieById.handler Fixtures.get_event VNull)
                   (Fixtures.deployed (Fixtures.movies_store [Fixtures.item_A])) 0))) =
    [GetMovieById.scanCommand "Movies"] /\
  ExclusiveStartKey (GetMovieById.scanCommand "Movies") = None.
Proof.
  split; [reflexivity|]. split; [reflexivity|]. split; [reflexivity|].
  apply (movie_lookup_first_page_only
           (Fixtures.deployed (Fixtures.movies_store [Fixtures.item_A]))
           (Fixtures.deployed
              (fun _ _ => Resolved (Fixtures.partial_page [Fixtures.item_A]
                                      (NativeObject [("id", NativeNumber 1 eq_refl)]))))
           0 2 Fixtures.get_event VNull VNull VNull
           (Fixtures.page [Fixtures.item_A])
           (Fixtures.partial_page [Fixtures.item_A]
              (NativeObject [("id", NativeNumber 1 eq_refl)])));
    reflexivity.
Defined.

(** Witness of X2: a count-only output. *)
Lemma movie_lookup_without_items_witness :
  ddbDocClient (Fixtures.deployed (fun _ _ => Resolved (Fixtures.count_only 3)))
    0 (GetMovieById.scanCommand "Movies") = Resolved (Fixtures.count_only 3) /\
  Items (Fixtures.count_only 3) = None /\
  fst (invoke (GetMovieById.handler Fixtures.get_event VNull)
         (Fixtures.deployed (fun _ _ => Resolved (Fixtures.count_only 3))) 0) =
  Normal {| statusCode := 200;
            headers := [("content-type", "application/json")];
            body := Some "{}" |}.
Proof.
  split; [reflexivity|]. split; [reflexivity|].
  apply (movie_lookup_without_items
           (Fixtures.deployed (fun _ _ => Resolved (Fixtures.count_only 3)))
           0 Fixtures.get_event VNull (Fixtures.count_only 3));
    reflexivity.
Defined.


(** Witness of X6: a title with a line break in it. *)
Lemma movie_lookup_body_one_line_witness :
  exists text,
    stringify (VObj [("data", VArr [VObj [("id", VNum 3 eq_refl);
                                          ("title", VStr "two
lines")]])]) = Some text /\
    Instance.no_control text = true.
Proof.
  apply (movie_lookup_body_one_line
           (Fixtures.deployed
              (Fixtures.movies_store [NativeObject [("id", NativeNumber 3 eq_refl);
                                                    ("title", NativeString "two
lines")]]))
           0 VNull VNull
           {| statusCode := 200;
              headers := json_headers;
              body := stringify (VObj [("data", VArr [VObj [("id", VNum 3 eq_refl);
                                                            ("title", VStr "two
lines")]])]) |}
           {| calls := 1;
              trace := [ConsoleLog [LogValue (VStr "Event: "); LogValue (stringified VNull)];
                        Send (GetMovieById.scanCommand "Movies");
                        ConsoleLog
                          [LogValue (VStr "ScanCommand response: ");
                           LogOutput (GetMovieById.scanCommand "Movies")
                             (Fixtures.page [NativeObject [("id", NativeNumber 3 eq_refl);
                                                           ("title", NativeString "two
lines")]])]] |}).
  reflexivity.
Defined.

(* ===================================================================== *)
(** ** The stack: seed and grants *)
(* ===================================================================== *)

Section StackWiring.
Import Stack.

(** X9. The seed call writes one batch to each of the two tables, the
    movies to [Movies] and the cast to [MovieCast], neither batch taking
    the place of the other; it writes to no other table; and every
    table it writes to is one the policy of the custom resource lists. *)
Theorem seed_writes_both_tables
    {Item Batch : Type} (generateBatch : list Item -> Batch)
    (movies movieCasts : list Item) :
  Seed.action (Seed.onCreate generateBatch movies movieCasts) = "batchWriteItem" /\
  Seed.parameters (Seed.onCreate generateBatch movies movieCasts) !! tableName moviesTable =
    Some (generateBatch movies) /\
  Seed.parameters (Seed.onCreate generateBatch movies movieCasts) !! tableName movieCastsTable =
    Some (generateBatch movieCasts) /\
  forall (name : string) (batch : Batch),
    Seed.parameters (Seed.onCreate generateBatch movies movieCasts) !! name = Some batch ->
    exists table,
      In table Seed.policy_resources /\ tableName table = name.
Proof.
  cbn [Seed.onCreate Seed.action Seed.parameters]. unfold Seed.RequestItems.
  split; [reflexivity|].
  split; [now rewrite lookup_insert_ne, lookup_insert_eq|].
  split; [now rewrite lookup_insert_eq|].
  intros name batch Hlookup.
  apply lookup_insert_Some in Hlookup as [[<- _]|[_ Hlookup]].
  - exists movieCastsTable. cbn. auto.
  - apply lookup_insert_Some in Hlookup as [[<- _]|[_ Hlookup]].
    + exists moviesTable. cbn. auto.
    + now rewrite lookup_empty in Hlookup.
Qed.

(** X10. Whenever the environment the stack gives a function holds the
    name of a table of the stack, the stack also grants that function
    read access to that table. *)
Theorem environment_tables_are_granted
    (f : NodejsFunction) (table : Table) (key : string) :
  In f [simpleFn; getMovieByIdFn; getMovieCastMembersFn] ->
  In table Grants.tables ->
  environment f !! key = Some (tableName table) ->
  In (table, f) Grants.grantReadData.
Proof.
  intros Hf Ht Henv.
  destruct Hf as [<-|[<-|[<-|[]]]].
  - cbn [environment simpleFn] in Henv. now rewrite lookup_empty in Henv.
  - cbn [environment getMovieByIdFn] in Henv.
    apply elem_of_list_to_map_2 in Henv.
    destruct Ht as [<-|[<-|[]]]; cbn [tableName moviesTable movieCastsTable] in Henv.
    + cbn. auto.
    + apply elem_of_cons in Henv as [Henv|Henv]; [discriminate|].
      apply elem_of_cons in Henv as [Henv|Henv]; [discriminate|].
      now apply elem_of_nil in Henv.
  - destruct Ht as [<-|[<-|[]]]; cbn; auto.
Qed.

End StackWiring.

(** Witness of X10: the cast function and the table named by its
    [CAST_TABLE_NAME]. *)
Lemma environment_tables_are_granted_witness :
  In (Stack.movieCastsTable, Stack.getMovieCastMembersFn) Grants.grantReadData.
Proof.
  apply (environment_tables_are_granted
           Stack.getMovieCastMembersFn Stack.movieCastsTable "CAST_TABLE_NAME").
  - cbn. auto.
  - cbn. auto.
  - vm_compute. reflexivity.
Defined.
